(** * uplink.models: model converter builders ([load] and [dump])

    A shallow embedding of [uplink/models.py].  The module defines one
    class, [_ModelConverterBuilder], and two public subclasses, [load] and
    [dump], which register a user function as a (de)serializer for a base
    model class and all of its subclasses.

    Python objects are drawn from a small universe ([pyobj]); builder
    instances are mutable and shared between the caller and the converter
    registry, so they live in a store and methods run in a state-and-error
    monad. *)

From stdpp Require Import base option list countable strings gmap.

Local Open Scope string_scope.
Local Open Scope list_scope.

Set Warnings "-register-all".

(** ** Python objects *)

(** A class object: its [__name__] and its [__bases__]. *)
Inductive pyclass : Type :=
  | Class (name : string) (bases : list pyclass).

Definition class_name (c : pyclass) : string :=
  match c with Class n _ => n end.

Definition class_bases (c : pyclass) : list pyclass :=
  match c with Class _ bs => bs end.

(** The objects the module handles: [None], strings, classes, functions
    (told apart by their identity) and plain instances of a class (told
    apart by their class and identity). *)
Inductive pyobj : Type :=
  | PyNone
  | PyStr (s : string)
  | PyClass (c : pyclass)
  | PyFunc (id : nat)
  | PyInst (c : pyclass) (id : nat).

(** Induction on a class with the hypothesis available for every base. *)
Lemma pyclass_bases_ind (P : pyclass → Prop) :
  (∀ n bs, Forall P bs → P (Class n bs)) → ∀ c, P c.
Proof.
  intros step. fix IH 1. intros [n bs]. apply step.
  induction bs as [|b bs IHbs]; constructor; [apply IH | exact IHbs].
Qed.

Fixpoint pyclass_to_tree (c : pyclass) : gen_tree string :=
  match c with
  | Class n bs => GenNode 0 (GenLeaf n :: map pyclass_to_tree bs)
  end.

Fixpoint pyclass_of_tree (t : gen_tree string) : pyclass :=
  match t with
  | GenNode _ (GenLeaf n :: ts) => Class n (map pyclass_of_tree ts)
  | _ => Class "" []
  end.

Lemma pyclass_of_to_tree c : pyclass_of_tree (pyclass_to_tree c) = c.
Proof.
  induction c as [n bs IH] using pyclass_bases_ind. simpl. f_equal.
  induction IH as [|b bs Hb _ IHbs]; simpl; [done | by rewrite Hb, IHbs].
Qed.

Global Instance pyclass_eq_dec : EqDecision pyclass.
Proof.
  refine (fix go (c d : pyclass) {struct c} : Decision (c = d) :=
    match c, d with
    | Class n bs, Class m cs =>
        cast_if_and (decide (n = m))
          ((fix go_list (xs ys : list pyclass) {struct xs}
              : Decision (xs = ys) :=
              match xs, ys with
              | [], [] => left eq_refl
              | x :: xs', y :: ys' =>
                  cast_if_and (go x y) (go_list xs' ys')
              | _, _ => right _
              end) bs cs)
    end); clear go; try clear go_list; congruence.
Defined.

Global Instance pyclass_countable : Countable pyclass :=
  inj_countable' pyclass_to_tree pyclass_of_tree pyclass_of_to_tree.

Global Instance pyobj_eq_dec : EqDecision pyobj.
Proof. solve_decision. Defined.

Definition pyobj_to_sum (o : pyobj)
  : unit + string + pyclass + nat + pyclass * nat :=
  match o with
  | PyNone => inl (inl (inl (inl tt)))
  | PyStr s => inl (inl (inl (inr s)))
  | PyClass c => inl (inl (inr c))
  | PyFunc id => inl (inr id)
  | PyInst c id => inr (c, id)
  end.

Definition pyobj_of_sum (x : unit + string + pyclass + nat + pyclass * nat)
  : pyobj :=
  match x with
  | inl (inl (inl (inl _))) => PyNone
  | inl (inl (inl (inr s))) => PyStr s
  | inl (inl (inr c)) => PyClass c
  | inl (inr id) => PyFunc id
  | inr (c, id) => PyInst c id
  end.

Global Instance pyobj_countable : Countable pyobj.
Proof.
  refine (inj_countable' pyobj_to_sum pyobj_of_sum _). by intros [].
Defined.

(** Built-in classes. *)
Definition object_ : pyclass := Class "object" [].
Definition type_cls : pyclass := Class "type" [object_].
Definition NoneType : pyclass := Class "NoneType" [object_].
Definition str : pyclass := Class "str" [object_].
Definition function : pyclass := Class "function" [object_].

(** The builtin [type(o)]: the class of an object.  Every class of the
    universe has the metaclass [type]. *)
Definition type (o : pyobj) : pyobj :=
  match o with
  | PyNone => PyClass NoneType
  | PyStr _ => PyClass str
  | PyClass _ => PyClass type_cls
  | PyFunc _ => PyClass function
  | PyInst c _ => PyClass c
  end.

(** The builtin [callable(o)]: functions and classes can be called. *)
Definition callable (o : pyobj) : bool :=
  match o with
  | PyFunc _ | PyClass _ => true
  | _ => false
  end.

(** ** The class hierarchy *)

(** [subclass c b]: [c] is [b] or reaches [b] through its bases. *)
Inductive subclass : pyclass → pyclass → Prop :=
  | subclass_refl c : subclass c c
  | subclass_base c p b :
      p ∈ class_bases c → subclass p b → subclass c b.

(** The builtin [issubclass(c, b)] on two classes. *)
Fixpoint issubclass (c b : pyclass) : bool :=
  bool_decide (c = b) ||
  match c with
  | Class _ bs => existsb (λ p, issubclass p b) bs
  end.

(** Modelled from the spec: [utils.is_subclass], imported from a module
    that is not under src/.  It is the type-compatibility step: the
    encountered type must be identical to or a subclass of the base type;
    the test is on the type hierarchy, not instance-based, and never
    raises. *)
Definition is_subclass (cls class_info : pyobj) : bool :=
  match cls, class_info with
  | PyClass c, PyClass b => issubclass c b
  | _, _ => false
  end.

(** Modelled from the spec: the well-known structured-JSON marker types
    [decorators.returns.json] and [decorators.json], imported from a module
    that is not under src/.  Only their identity matters. *)
Module decorators.
Definition returns_json : pyclass := Class "returns.json" [object_].
Definition json : pyclass := Class "json" [object_].
End decorators.

(** ** Exceptions and the store *)

Inductive exn : Type :=
  | TypeError
  | ReferenceError
  | Exception (msg : string).

Inductive result (A : Type) : Type :=
  | Ok (a : A)
  | Raise (e : exn).
Arguments Ok {A} a.
Arguments Raise {A} e.

(** The two public subclasses of [_ModelConverterBuilder]. *)
Inductive builder_class : Type := LoadCls | DumpCls.

Global Instance builder_class_eq_dec : EqDecision builder_class.
Proof. solve_decision. Defined.

(** An instance of [_ModelConverterBuilder]: its class and the three
    attributes set by [__init__]. *)
Record _ModelConverterBuilder : Type := Builder {
  __class__ : builder_class;
  _model_class : pyobj;
  _annotations : gset pyobj;
  _func : pyobj;
}.

(** A [functools.partial] object: the wrapped callable and the positional
    arguments bound so far. *)
Record partial : Type := Partial {
  partial_func : pyobj;
  partial_args : list pyobj;
}.

Definition loc : Type := nat.

(** The builder instances alive, by reference, and the registry of default
    converter factories: references to builders, in registration order. *)
Record state : Type := State {
  heap : gmap loc _ModelConverterBuilder;
  registry : list loc;
}.

Definition init_state : state := State ∅ [].

(** Computations that read and write the store and may raise. *)
Definition M (A : Type) : Type := state → result A * state.

Definition ret {A} (a : A) : M A := λ s, (Ok a, s).

Definition raise {A} (e : exn) : M A := λ s, (Raise e, s).

Definition bind {A B} (m : M A) (k : A → M B) : M B :=
  λ s, match m s with
       | (Ok a, s') => k a s'
       | (Raise e, s') => (Raise e, s')
       end.

Notation "x <- m ;; k" := (bind m (λ x, k))
  (at level 100, m at next level, right associativity).
Notation "m ;; k" := (bind m (λ _, k))
  (at level 100, right associativity).

(** Following a reference.  Python references never dangle; the model
    reports a location outside the store as [ReferenceError]. *)
Definition deref (self : loc) : M _ModelConverterBuilder :=
  λ s, match heap s !! self with
       | Some b => (Ok b, s)
       | None => (Raise ReferenceError, s)
       end.

(** Allocation of a new instance. *)
Definition alloc (b : _ModelConverterBuilder) : M loc :=
  λ s, let l := fresh (dom (heap s)) in
       (Ok l, State (<[l := b]> (heap s)) (registry s)).

(** The instance with its [_func] attribute replaced. *)
Definition attach (b : _ModelConverterBuilder) (func : pyobj)
    : _ModelConverterBuilder :=
  Builder (__class__ b) (_model_class b) (_annotations b) func.

(** [self._func = func] *)
Definition set_func (self : loc) (func : pyobj) : M unit :=
  b <- deref self ;;
  λ s, (Ok tt, State (<[self := attach b func]> (heap s)) (registry s)).

(** ** [_ModelConverterBuilder] *)

(** [_get_classes = functools.partial(map, type)] *)
Definition _get_classes (xs : list pyobj) : list pyobj := type <$> xs.

(** [functools.partial(func, *args)]: refuses a first argument that is not
    callable. *)
Definition functools_partial (func : pyobj) (args : list pyobj) : M partial :=
  if callable func then ret (Partial func args) else raise TypeError.

(** [__init__(self, base_class, annotations=())]: the attribute values of
    the new instance; [annotations = None] stands for an omitted argument. *)
Definition __init__ (cls : builder_class) (base_class : pyobj)
    (annotations : option (list pyobj)) : _ModelConverterBuilder :=
  {| __class__ := cls;
     _model_class := base_class;
     _annotations := list_to_set (default [] annotations);
     _func := PyNone |}.

(** Modelled from the spec: [converters.register_default_converter_factory],
    imported from a module that is not under src/.  It makes the strategy
    discoverable: the builder is added to the external registry. *)
Definition register_default_converter_factory (proxy : loc) : M unit :=
  λ s, (Ok tt, State (heap s) (registry s ++ [proxy])).

(** [using(self, func, _r=converters.register_default_converter_factory)]
    ([using] is reserved in Rocq, hence the trailing underscore). *)
Definition using_ (self : loc) (func : pyobj) (_r : loc → M unit) : M pyobj :=
  set_func self func ;;
  _r self ;;
  ret func.

(** [__call__ = using]: the builder applied to the decorated function, with
    the default [_r]. *)
Definition __call__ (self : loc) (func : pyobj) : M pyobj :=
  using_ self func register_default_converter_factory.

(** [_contains_annotations(self, argument_annotations, method_annotations)] *)
Definition _contains_annotations (self : loc)
    (argument_annotations method_annotations : list pyobj) : M bool :=
  b <- deref self ;;
  let types : gset pyobj := list_to_set (_get_classes argument_annotations) in
  let types := types ∪ list_to_set (_get_classes method_annotations) in
  ret (bool_decide (_annotations b ⊆ types)).

(** [_is_relevant(self, type_, argument_annotations, method_annotations)];
    [and] evaluates its right operand only when the left one is true. *)
Definition _is_relevant (self : loc) (type_ : pyobj)
    (argument_annotations method_annotations : list pyobj) : M bool :=
  b <- deref self ;;
  if is_subclass type_ (_model_class b)
  then _contains_annotations self argument_annotations method_annotations
  else ret false.

(** [_marshall(self, type_, *args, **kwargs)], called with the two marker
    collections; falling off the end of the function returns [None]. *)
Definition _marshall (self : loc) (type_ : pyobj)
    (argument_annotations method_annotations : list pyobj)
    : M (option partial) :=
  relevant <- _is_relevant self type_ argument_annotations method_annotations ;;
  if relevant
  then b <- deref self ;;
       p <- functools_partial (_func b) [type_] ;;
       ret (Some p)
  else ret None.

(** ** [load] and [dump] *)

(** Modelled from the spec: [converters.ConverterFactory], the second base
    class of [load] and [dump], imported from a module that is not under
    src/.  A factory that does not override a query method declines the
    query: it answers with no match. *)
Definition ConverterFactory_make_converter : M (option partial) := ret None.

(** Instantiating one of the two classes: a fresh instance initialised by
    [__init__]. *)
Definition new (cls : builder_class) (base_class : pyobj)
    (annotations : option (list pyobj)) : M loc :=
  alloc (__init__ cls base_class annotations).

Definition load : pyobj → option (list pyobj) → M loc := new LoadCls.

Definition dump : pyobj → option (list pyobj) → M loc := new DumpCls.

(** [load.make_response_body_converter]; on a [dump] instance the method
    is the one inherited from [ConverterFactory]. *)
Definition make_response_body_converter (self : loc) (type_ : pyobj)
    (argument_annotations method_annotations : list pyobj)
    : M (option partial) :=
  b <- deref self ;;
  match __class__ b with
  | LoadCls => _marshall self type_ argument_annotations method_annotations
  | DumpCls => ConverterFactory_make_converter
  end.

(** [dump.make_request_body_converter]; on a [load] instance the method is
    the one inherited from [ConverterFactory]. *)
Definition make_request_body_converter (self : loc) (type_ : pyobj)
    (argument_annotations method_annotations : list pyobj)
    : M (option partial) :=
  b <- deref self ;;
  match __class__ b with
  | DumpCls => _marshall self type_ argument_annotations method_annotations
  | LoadCls => ConverterFactory_make_converter
  end.

(** [functools.partial(cls, annotations=...)] on a class whose constructor
    takes [annotations] as an optional keyword: the stored keyword is used
    unless the call supplies its own. *)
Definition functools_partial_annotations {A : Type}
    (cls : pyobj → option (list pyobj) → A) (annotations : list pyobj)
    : pyobj → option (list pyobj) → A :=
  λ base_class kw, cls base_class (Some (default annotations kw)).

(** [load.from_json = functools.partial(load,
                          annotations=(decorators.returns.json,))] *)
Definition load_from_json : pyobj → option (list pyobj) → M loc :=
  functools_partial_annotations load [PyClass decorators.returns_json].

(** [dump.to_json = functools.partial(dump, annotations=(decorators.json,))] *)
Definition dump_to_json : pyobj → option (list pyobj) → M loc :=
  functools_partial_annotations dump [PyClass decorators.json].

(** The four public entry points. *)
Inductive facade : Type := load_ | dump_ | load_from_json_ | dump_to_json_.

Definition construct (f : facade) : pyobj → option (list pyobj) → M loc :=
  match f with
  | load_ => load
  | dump_ => dump
  | load_from_json_ => load_from_json
  | dump_to_json_ => dump_to_json
  end.

Definition facade_class (f : facade) : builder_class :=
  match f with
  | load_ | load_from_json_ => LoadCls
  | dump_ | dump_to_json_ => DumpCls
  end.

(** The [annotations] argument a facade hands to [__init__]. *)
Definition facade_annotations (f : facade) (annotations : option (list pyobj))
    : option (list pyobj) :=
  match f with
  | load_ | dump_ => annotations
  | load_from_json_ =>
      Some (default [PyClass decorators.returns_json] annotations)
  | dump_to_json_ => Some (default [PyClass decorators.json] annotations)
  end.

(** Decorator use, [@facade(base_class)] above [def func]: build the
    instance and apply it to the function. *)
Definition decorate (f : facade) (base_class : pyobj)
    (annotations : option (list pyobj)) (func : pyobj) : M pyobj :=
  self <- construct f base_class annotations ;;
  __call__ self func.

(** ** Calling objects *)

Section Call.
(** The behaviour of the callables of the program: what calling a function
    or a class on a list of arguments does. *)
Variable call_body : pyobj → list pyobj → M pyobj.

(** Calling [f] on the positional arguments [args]. *)
Definition call (f : pyobj) (args : list pyobj) : M pyobj :=
  if callable f then call_body f args else raise TypeError.

(** Calling a [functools.partial] object: the bound arguments come
    first. *)
Definition call_partial (p : partial) (args : list pyobj) : M pyobj :=
  call (partial_func p) (partial_args p ++ args).
End Call.

(** ** Programs over the module *)

(** What client code and the pipeline do with the module: instantiate a
    class, apply an instance to a function, query an instance. *)
Inductive op : Type :=
  | OpNew (f : facade) (base_class : pyobj) (annotations : option (list pyobj))
  | OpCall (self : loc) (func : pyobj)
  | OpResponse (self : loc) (type_ : pyobj) (a m : list pyobj)
  | OpRequest (self : loc) (type_ : pyobj) (a m : list pyobj).

Definition exec (o : op) : M unit :=
  match o with
  | OpNew f base_class annotations =>
      construct f base_class annotations ;; ret tt
  | OpCall self func => __call__ self func ;; ret tt
  | OpResponse self type_ a m =>
      make_response_body_converter self type_ a m ;; ret tt
  | OpRequest self type_ a m =>
      make_request_body_converter self type_ a m ;; ret tt
  end.

(** A straight-line program: it stops at the first exception. *)
Fixpoint run (ops : list op) : M unit :=
  match ops with
  | [] => ret tt
  | o :: ops' => exec o ;; run ops'
  end.

(** How many times a program applies the instance [self] to a function. *)
Fixpoint attachments (self : loc) (ops : list op) : nat :=
  match ops with
  | [] => 0
  | OpCall l _ :: ops' =>
      (if decide (l = self) then 1 else 0) + attachments self ops'
  | _ :: ops' => attachments self ops'
  end.

(** Every function a program attaches is callable. *)
Definition attaches_callables (ops : list op) : bool :=
  forallb (λ o, match o with OpCall _ func => callable func | _ => true end)
          ops.

(** ** A small program to run the module on *)

Module Zoo.
Definition Animal : pyclass := Class "Animal" [object_].
Definition Dog : pyclass := Class "Dog" [Animal].
Definition Plant : pyclass := Class "Plant" [object_].
Definition load_animal : pyobj := PyFunc 1.
Definition rex : pyobj := PyStr "Rex".
(** A method marker as the pipeline supplies it: an instance of
    [returns.json]. *)
Definition json_marker : pyobj := PyInst decorators.returns_json 7.
(** [@load(Animal)] above [def load_animal(model_cls, data)]: the builder
    and the store once the module is imported. *)
Definition animal_loader : _ModelConverterBuilder :=
  Builder LoadCls (PyClass Animal) ∅ load_animal.
Definition registered : state := State {[ 0 := animal_loader ]} [0].
(** The same as a program, followed by one query of the pipeline. *)
Definition program : list op :=
  [ OpNew load_ (PyClass Animal) None;
    OpCall 0 load_animal;
    OpResponse 0 (PyClass Dog) [] [] ].
(** A body for the functions of the program: an instance of the class
    given first. *)
Definition call_body (f : pyobj) (args : list pyobj) : M pyobj :=
  match args with
  | [PyClass c; _] => ret (PyInst c 0)
  | _ => raise (Exception "bad arguments")
  end.
End Zoo.

(** ** Specification vocabulary *)

(** The combined set of the types of the markers supplied at a call site. *)
Definition supplied_types (P M : list pyobj) : gset pyobj :=
  list_to_set (type <$> P) ∪ list_to_set (type <$> M).

(** The encountered object is a class, the base is a class, and the first
    is the second or one of its subclasses. *)
Definition type_compatible (type_ base_class : pyobj) : Prop :=
  ∃ T B, type_ = PyClass T ∧ base_class = PyClass B ∧ subclass T B.

(** What a query of the builder [b] answers, as a function of the builder's
    attributes and the query alone. *)
Definition marshall_outcome (b : _ModelConverterBuilder) (type_ : pyobj)
    (P M : list pyobj) : result (option partial) :=
  if is_subclass type_ (_model_class b)
     && bool_decide (_annotations b ⊆ supplied_types P M)
  then if callable (_func b)
       then Ok (Some (Partial (_func b) [type_]))
       else Raise TypeError
  else Ok None.

(** The structured-JSON presets in the spec's words: the primary form with
    the marker type pre-supplied. *)
Definition spec_load_from_json (base_class : pyobj) : M loc :=
  load base_class (Some [PyClass decorators.returns_json]).

Definition spec_dump_to_json (base_class : pyobj) : M loc :=
  dump base_class (Some [PyClass decorators.json]).

(** Every registered reference points to a live builder whose [_func]
    satisfies [A]. *)
Definition registered_with (A : loc → pyobj → Prop) (s : state) : Prop :=
  ∀ l, l ∈ registry s → ∃ b, heap s !! l = Some b ∧ A l (_func b).

(** How many times [self] occurs in the registry. *)
Definition registrations (self : loc) (s : state) : nat :=
  length (filter (λ l, l = self) (registry s)).

(** The query method through which a builder of a class answers:
    [make_response_body_converter] for [load],
    [make_request_body_converter] for [dump]. *)
Definition facade_query (cls : builder_class)
    : loc → pyobj → list pyobj → list pyobj → M (option partial) :=
  match cls with
  | LoadCls => make_response_body_converter
  | DumpCls => make_request_body_converter
  end.

(** The marker class a preset requires; the primary forms require none. *)
Definition facade_marker (f : facade) : option pyobj :=
  match f with
  | load_ | dump_ => None
  | load_from_json_ => Some (PyClass decorators.returns_json)
  | dump_to_json_ => Some (PyClass decorators.json)
  end.

(** Two builders have the same class, base and required markers. *)
Definition same_configuration (b b' : _ModelConverterBuilder) : Prop :=
  __class__ b' = __class__ b
  ∧ _model_class b' = _model_class b
  ∧ _annotations b' = _annotations b.

(** ** More of the small program *)

Module ZooJson.
(** [@load.from_json(Animal)] above [def load_animal(model_cls, data)]. *)
Definition json_loader : _ModelConverterBuilder :=
  Builder LoadCls (PyClass Zoo.Animal)
          {[ PyClass decorators.returns_json ]} Zoo.load_animal.
Definition registered : state := State {[ 0 := json_loader ]} [0].
(** A builder whose required set was given a marker instance. *)
Definition instance_loader : _ModelConverterBuilder :=
  Builder LoadCls (PyClass Zoo.Animal) {[ Zoo.json_marker ]} Zoo.load_animal.
Definition registered_instance : state := State {[ 0 := instance_loader ]} [0].
(** [load(Animal)], not yet applied to a function. *)
Definition constructed : state :=
  State {[ 0 := __init__ LoadCls (PyClass Zoo.Animal) None ]} [].
Definition load_animal_v2 : pyobj := PyFunc 2.
(** A registration function that refuses. *)
Definition closed_registry (proxy : loc) : M unit :=
  raise (Exception "registry closed").
(** A program that works on a second builder only. *)
Definition other_program : list op :=
  [ OpNew dump_to_json_ (PyClass Zoo.Plant) None;
    OpCall 1 load_animal_v2;
    OpRequest 1 (PyClass Zoo.Plant) [] [] ].
End ZooJson.

(** ** The module on the small program *)

Example scenario1 :
  (self <- load (PyClass Zoo.Animal) None ;;
   __call__ self Zoo.load_animal ;;
   _marshall self (PyClass Zoo.Dog) [] []) init_state
  = (Ok (Some (Partial Zoo.load_animal [PyClass Zoo.Dog])),
     State {[ 0 := Builder LoadCls (PyClass Zoo.Animal) ∅ Zoo.load_animal ]} [0]).
Proof. vm_compute. reflexivity. Qed.

Example scenario2 :
  (self <- load_from_json (PyClass Zoo.Animal) None ;;
   __call__ self Zoo.load_animal ;;
   _marshall self (PyClass Zoo.Animal) [] []) init_state
  = (Ok None,
     State {[ 0 := Builder LoadCls (PyClass Zoo.Animal)
                     {[ PyClass decorators.returns_json ]} Zoo.load_animal ]}
           [0]).
Proof. vm_compute. reflexivity. Qed.

Example scenario3 :
  ((self <- load_from_json (PyClass Zoo.Animal) None ;;
    __call__ self Zoo.load_animal ;;
    _marshall self (PyClass Zoo.Animal) [] [Zoo.json_marker]) init_state).1
  = Ok (Some (Partial Zoo.load_animal [PyClass Zoo.Animal])).
Proof. vm_compute. reflexivity. Qed.

Example scenario4 :
  ((self <- load (PyClass Zoo.Animal) None ;;
    __call__ self Zoo.load_animal ;;
    _marshall self (PyClass Zoo.Plant) [Zoo.json_marker] [Zoo.json_marker])
     init_state).1
  = Ok None.
Proof. vm_compute. reflexivity. Qed.

(** Querying an instance that was never applied to a function:
    [functools.partial(None, type_)] raises. *)
Example unattached_query :
  ((self <- load (PyClass Zoo.Animal) None ;;
    _marshall self (PyClass Zoo.Dog) [] []) init_state).1
  = Raise TypeError.
Proof. vm_compute. reflexivity. Qed.

(** * Properties *)

(** ** The class hierarchy *)

Lemma issubclass_spec c b : issubclass c b = true ↔ subclass c b.
Proof.
  split.
  - induction c as [n bs IH] using pyclass_bases_ind. simpl.
    intros [Heq%bool_decide_eq_true | Hex]%orb_true_iff.
    + subst. constructor.
    + apply existsb_exists in Hex as (p & Hp & Hpb).
      apply list_elem_of_In in Hp.
      eapply subclass_base; [exact Hp |].
      rewrite Forall_forall in IH. by apply IH.
  - induction 1 as [c | c p b Hp _ IH].
    + destruct c. simpl. apply orb_true_iff. left. by apply bool_decide_eq_true.
    + destruct c as [n bs]. simpl in *. apply orb_true_iff. right.
      apply existsb_exists. exists p. split; [by apply list_elem_of_In | done].
Qed.

Lemma is_subclass_spec type_ base_class :
  is_subclass type_ base_class = true ↔ type_compatible type_ base_class.
Proof.
  unfold type_compatible. split.
  - destruct type_, base_class; simpl; try discriminate.
    intros H%issubclass_spec. eauto.
  - intros (T & B & -> & -> & H). simpl. by apply issubclass_spec.
Qed.

Lemma is_subclass_false type_ base_class :
  is_subclass type_ base_class = false ↔ ¬ type_compatible type_ base_class.
Proof. rewrite <- is_subclass_spec. by destruct (is_subclass _ _). Qed.

(** ** What each method does to the store *)

Lemma deref_run s self b :
  heap s !! self = Some b → deref self s = (Ok b, s).
Proof. unfold deref. by intros ->. Qed.

Lemma _contains_annotations_run s self b P M :
  heap s !! self = Some b →
  _contains_annotations self P M s
  = (Ok (bool_decide (_annotations b ⊆ supplied_types P M)), s).
Proof.
  intros Hb. unfold _contains_annotations, bind. by rewrite (deref_run _ _ _ Hb).
Qed.

Lemma _is_relevant_run s self b type_ P M :
  heap s !! self = Some b →
  _is_relevant self type_ P M s
  = (Ok (is_subclass type_ (_model_class b)
         && bool_decide (_annotations b ⊆ supplied_types P M)), s).
Proof.
  intros Hb. unfold _is_relevant, bind. rewrite (deref_run _ _ _ Hb).
  destruct (is_subclass _ _); simpl; [by apply _contains_annotations_run | done].
Qed.

Lemma _marshall_run s self b type_ P M :
  heap s !! self = Some b →
  _marshall self type_ P M s = (marshall_outcome b type_ P M, s).
Proof.
  intros Hb. unfold _marshall, marshall_outcome, bind.
  rewrite (_is_relevant_run _ _ _ _ _ _ Hb).
  destruct (_ && _); [| done].
  rewrite (deref_run _ _ _ Hb). unfold functools_partial.
  by destruct (callable _).
Qed.

Lemma _marshall_dangling s self type_ P M :
  heap s !! self = None →
  _marshall self type_ P M s = (Raise ReferenceError, s).
Proof.
  intros Hb. unfold _marshall, _is_relevant, bind, deref. by rewrite Hb.
Qed.

Lemma marshall_outcome_match b type_ P M :
  type_compatible type_ (_model_class b) →
  _annotations b ⊆ supplied_types P M →
  callable (_func b) = true →
  marshall_outcome b type_ P M = Ok (Some (Partial (_func b) [type_])).
Proof.
  intros Ht%is_subclass_spec Hm Hf.
  unfold marshall_outcome. by rewrite Ht, (bool_decide_eq_true_2 _ Hm), Hf.
Qed.

Lemma marshall_outcome_no_match b type_ P M :
  ¬ type_compatible type_ (_model_class b)
  ∨ ¬ _annotations b ⊆ supplied_types P M →
  marshall_outcome b type_ P M = Ok None.
Proof.
  unfold marshall_outcome.
  intros [Ht%is_subclass_false | Hm].
  - by rewrite Ht.
  - rewrite (bool_decide_eq_false_2 _ Hm). by rewrite andb_false_r.
Qed.

Lemma marshall_outcome_converter b type_ P M conv :
  marshall_outcome b type_ P M = Ok (Some conv) →
  type_compatible type_ (_model_class b)
  ∧ _annotations b ⊆ supplied_types P M
  ∧ callable (_func b) = true
  ∧ conv = Partial (_func b) [type_].
Proof.
  unfold marshall_outcome.
  destruct (is_subclass _ _) eqn:Ht; simpl; [| discriminate].
  destruct (bool_decide _) eqn:Hm; [| discriminate].
  destruct (callable _) eqn:Hf; [| discriminate].
  intros [= <-]. apply is_subclass_spec in Ht. apply bool_decide_eq_true in Hm.
  done.
Qed.

Lemma type_compatible_classes T B :
  type_compatible (PyClass T) (PyClass B) ↔ subclass T B.
Proof.
  unfold type_compatible. split.
  - by intros (? & ? & [= <-] & [= <-] & H).
  - eauto.
Qed.

(** ** The matching protocol *)

(** C1.  For a builder with base class [B], required marker set [R] and a
    function attached, and for an encountered class [T] and marker
    collections [P] and [M]: [_marshall] returns a converter iff [T] is [B]
    or a subclass of [B] and the types of the markers of [P] and [M]
    together include [R]; otherwise it returns [None].  In particular a
    class outside the hierarchy of [B] never matches, and an empty [R]
    always passes the marker check. *)
Theorem marshall_converter_iff (s : state) (self : loc)
    (b : _ModelConverterBuilder) (B T : pyclass) (P M : list pyobj) :
  heap s !! self = Some b →
  _model_class b = PyClass B →
  callable (_func b) = true →
  ((∃ conv, (_marshall self (PyClass T) P M s).1 = Ok (Some conv))
     ↔ subclass T B ∧ _annotations b ⊆ supplied_types P M)
  ∧ (¬ (subclass T B ∧ _annotations b ⊆ supplied_types P M) →
     (_marshall self (PyClass T) P M s).1 = Ok None)
  ∧ (¬ subclass T B → (_marshall self (PyClass T) P M s).1 = Ok None)
  ∧ (_annotations b = ∅ → (_contains_annotations self P M s).1 = Ok true).
Proof.
  intros Hb HB Hf. rewrite (_marshall_run _ _ _ _ _ _ Hb). simpl.
  assert (Hno : ¬ subclass T B ∨ ¬ _annotations b ⊆ supplied_types P M →
                marshall_outcome b (PyClass T) P M = Ok None).
  { intros Hor. apply marshall_outcome_no_match. rewrite HB.
    by rewrite type_compatible_classes. }
  split; [split | split; [| split]].
  - intros [conv (Ht & Hm & _)%marshall_outcome_converter].
    rewrite HB in Ht. by apply type_compatible_classes in Ht.
  - intros [Ht Hm]. eexists. apply marshall_outcome_match; [| done..].
    rewrite HB. by apply type_compatible_classes.
  - intros Hn. apply Hno.
    destruct (decide (_annotations b ⊆ supplied_types P M)); [| by right].
    left. intros Ht. by apply Hn.
  - intros Hn. apply Hno. by left.
  - intros HR. rewrite (_contains_annotations_run _ _ _ _ _ Hb). simpl.
    f_equal. apply bool_decide_eq_true. rewrite HR. set_solver.
Qed.

(** C2.  When [_marshall] returns a converter for the encountered type,
    the converter is the builder's function with that type bound as its
    first argument: called on one payload it does exactly what the function
    does on the type and the payload. *)
Theorem marshall_converter_applies
    (call_body : pyobj → list pyobj → M pyobj) (s : state) (self : loc)
    (b : _ModelConverterBuilder) (type_ : pyobj) (P M : list pyobj)
    (conv : partial) :
  heap s !! self = Some b →
  (_marshall self type_ P M s).1 = Ok (Some conv) →
  conv = Partial (_func b) [type_]
  ∧ ∀ payload s',
      call_partial call_body conv [payload] s'
      = call call_body (_func b) [type_; payload] s'.
Proof.
  intros Hb. rewrite (_marshall_run _ _ _ _ _ _ Hb). simpl.
  intros (_ & _ & _ & ->)%marshall_outcome_converter. done.
Qed.

(** C3.  When the type check or the marker check fails, [_marshall]
    returns [None]; it does not raise, and the store is as it was. *)
Theorem marshall_no_match_returns_none (s : state) (self : loc)
    (b : _ModelConverterBuilder) (type_ : pyobj) (P M : list pyobj) :
  heap s !! self = Some b →
  ¬ type_compatible type_ (_model_class b)
  ∨ ¬ _annotations b ⊆ supplied_types P M →
  _marshall self type_ P M s = (Ok None, s).
Proof.
  intros Hb Hno. rewrite (_marshall_run _ _ _ _ _ _ Hb).
  by rewrite marshall_outcome_no_match.
Qed.

(** C9.  A query has no side effect: [_contains_annotations],
    [_is_relevant] and [_marshall] leave the store, hence every attribute
    of every builder, as it was; the answer of [_marshall] is a function of
    the query and of the attributes of the builder alone; and asking twice
    gives the answer of asking once. *)
Theorem marshall_pure (s : state) (self : loc) (type_ : pyobj)
    (P M : list pyobj) :
  (_contains_annotations self P M s).2 = s
  ∧ (_is_relevant self type_ P M s).2 = s
  ∧ _marshall self type_ P M s
    = (match heap s !! self with
       | Some b => marshall_outcome b type_ P M
       | None => Raise ReferenceError
       end, s)
  ∧ (_marshall self type_ P M ;; _marshall self type_ P M) s
    = _marshall self type_ P M s.
Proof.
  destruct (heap s !! self) as [b|] eqn:Hb.
  - rewrite (_contains_annotations_run _ _ _ _ _ Hb).
    rewrite (_is_relevant_run _ _ _ _ _ _ Hb).
    unfold bind. rewrite (_marshall_run _ _ _ _ _ _ Hb).
    repeat split. destruct (marshall_outcome _ _ _ _) eqn:Hout; [| done].
    by rewrite (_marshall_run _ _ _ _ _ _ Hb), Hout.
  - unfold bind. rewrite (_marshall_dangling _ _ _ _ _ Hb).
    unfold _contains_annotations, _is_relevant, bind, deref. by rewrite Hb.
Qed.

(** ** Construction and registration *)

Lemma fresh_loc_unused s : heap s !! fresh (dom (heap s)) = None.
Proof. apply not_elem_of_dom, is_fresh. Qed.

Lemma new_run cls base_class annotations s :
  new cls base_class annotations s
  = (Ok (fresh (dom (heap s))),
     State (<[fresh (dom (heap s)) := __init__ cls base_class annotations]>
              (heap s))
           (registry s)).
Proof. reflexivity. Qed.

Lemma construct_run f base_class annotations s :
  construct f base_class annotations s
  = new (facade_class f) base_class (facade_annotations f annotations) s.
Proof. by destruct f. Qed.

Lemma using__run s self b func _r :
  heap s !! self = Some b →
  using_ self func _r s
  = (_r self ;; ret func)
      (State (<[self := attach b func]> (heap s)) (registry s)).
Proof.
  intros Hb. unfold using_, set_func, bind. by rewrite (deref_run _ _ _ Hb).
Qed.

Lemma using__dangling s self func _r :
  heap s !! self = None → using_ self func _r s = (Raise ReferenceError, s).
Proof. intros Hb. unfold using_, set_func, bind, deref. by rewrite Hb. Qed.

Lemma __call___run s self b func :
  heap s !! self = Some b →
  __call__ self func s
  = (Ok func, State (<[self := attach b func]> (heap s)) (registry s ++ [self])).
Proof.
  intros Hb. unfold __call__, using_, set_func, bind.
  by rewrite (deref_run _ _ _ Hb).
Qed.

Lemma __call___dangling s self func :
  heap s !! self = None → __call__ self func s = (Raise ReferenceError, s).
Proof.
  intros Hb. unfold __call__, using_, set_func, bind, deref. by rewrite Hb.
Qed.

Lemma decorate_run f base_class annotations func s :
  decorate f base_class annotations func s
  = (Ok func,
     State (<[fresh (dom (heap s)) :=
                attach (__init__ (facade_class f) base_class
                          (facade_annotations f annotations)) func]> (heap s))
           (registry s ++ [fresh (dom (heap s))])).
Proof.
  unfold decorate, bind. rewrite construct_run, new_run.
  erewrite __call___run by (simpl; apply lookup_insert_eq).
  simpl. by rewrite insert_insert_eq.
Qed.

Lemma make_response_body_converter_state s self type_ P M :
  (make_response_body_converter self type_ P M s).2 = s.
Proof.
  unfold make_response_body_converter, bind, deref.
  destruct (heap s !! self) as [b|] eqn:Hb; [| done].
  destruct (__class__ b); [| done].
  by rewrite (_marshall_run _ _ _ _ _ _ Hb).
Qed.

Lemma make_request_body_converter_state s self type_ P M :
  (make_request_body_converter self type_ P M s).2 = s.
Proof.
  unfold make_request_body_converter, bind, deref.
  destruct (heap s !! self) as [b|] eqn:Hb; [| done].
  destruct (__class__ b); [done |].
  by rewrite (_marshall_run _ _ _ _ _ _ Hb).
Qed.

Lemma registrations_elem_of self s :
  self ∈ registry s ↔ 0 < registrations self s.
Proof.
  unfold registrations. split.
  - intros Hin.
    assert (Hf : self ∈ filter (λ l, l = self) (registry s))
      by (by apply list_elem_of_filter).
    destruct (filter _ _); [by apply elem_of_nil in Hf | simpl; lia].
  - destruct (filter _ _) as [|l ls] eqn:Hf; simpl; [lia |]. intros _.
    assert (Hl : l ∈ filter (λ l, l = self) (registry s))
      by (rewrite Hf; left).
    by apply list_elem_of_filter in Hl as [-> ?].
Qed.

Lemma registered_with_mono (A A' : loc → pyobj → Prop) s :
  (∀ l func, A l func → A' l func) →
  registered_with A s → registered_with A' s.
Proof.
  intros Himp Hinv l Hl. destruct (Hinv l Hl) as (b & Hb & HA). eauto.
Qed.

Lemma exec_invariant (A : loc → pyobj → Prop) o s s' :
  registered_with A s →
  exec o s = (Ok tt, s') →
  registered_with (λ l func, A l func ∨ o = OpCall l func) s'
  ∧ ∀ self, registrations self s' = registrations self s + attachments self [o].
Proof.
  intros Hinv. destruct o as [f B C | l func | l T P M | l T P M]; simpl.
  - unfold bind. rewrite construct_run, new_run. unfold ret. intros [= <-].
    split; [| intros; unfold registrations; simpl; lia].
    intros l Hl. simpl in *. destruct (Hinv l Hl) as (b & Hb & HA).
    exists b. split; [| by left]. rewrite lookup_insert_ne; [done |].
    intros <-. by rewrite fresh_loc_unused in Hb.
  - unfold bind. destruct (heap s !! l) as [b|] eqn:Hb.
    + rewrite (__call___run _ _ _ _ Hb). unfold ret. intros [= <-]. split.
      * intros l' [Hl' | ->%list_elem_of_singleton]%elem_of_app; simpl in *.
        -- destruct (decide (l = l')) as [<- | Hne].
           ++ eexists. split; [apply lookup_insert_eq |]. by right.
           ++ rewrite lookup_insert_ne by done.
              destruct (Hinv l' Hl') as (b' & Hb' & HA). eauto.
        -- eexists. split; [apply lookup_insert_eq |]. by right.
      * intros self. unfold registrations. simpl.
        rewrite filter_app, length_app. f_equal.
        rewrite filter_cons, filter_nil.
        destruct (decide (l = self)); simpl; lia.
    + by rewrite (__call___dangling _ _ _ Hb).
  - unfold bind.
    pose proof (make_response_body_converter_state s l T P M) as Hs.
    destruct (make_response_body_converter l T P M s) as [[r|e] s0];
      simpl in *; subst s0; unfold ret; intros [= <-].
    split; [| intros; lia]. eapply registered_with_mono; [| exact Hinv]. eauto.
  - unfold bind.
    pose proof (make_request_body_converter_state s l T P M) as Hs.
    destruct (make_request_body_converter l T P M s) as [[r|e] s0];
      simpl in *; subst s0; unfold ret; intros [= <-].
    split; [| intros; lia]. eapply registered_with_mono; [| exact Hinv]. eauto.
Qed.

Lemma attachments_cons self o ops :
  attachments self (o :: ops) = attachments self [o] + attachments self ops.
Proof. destruct o; simpl; lia. Qed.

Lemma run_invariant (A : loc → pyobj → Prop) ops s s' :
  registered_with A s →
  run ops s = (Ok tt, s') →
  registered_with (λ l func, A l func ∨ OpCall l func ∈ ops) s'
  ∧ ∀ self, registrations self s' = registrations self s + attachments self ops.
Proof.
  revert A s. induction ops as [|o ops IH]; intros A s Hinv Hrun;
    simpl in Hrun.
  - injection Hrun as <-. split; [| intros; simpl; lia].
    eapply registered_with_mono; [| exact Hinv]. eauto.
  - unfold bind in Hrun.
    destruct (exec o s) as [[[]|e] s1] eqn:Ho; [| done].
    destruct (exec_invariant A o s s1 Hinv Ho) as [Hinv1 Hcount1].
    destruct (IH _ s1 Hinv1 Hrun) as [Hinv' Hcount'].
    split.
    + eapply registered_with_mono; [| exact Hinv']. simpl.
      intros l func [[HA | ->] | Hin]; [by left | right; left | right; by right].
    + intros self.
      rewrite Hcount', Hcount1, (attachments_cons self o ops). lia.
Qed.

Lemma attaches_callables_elem_of ops self func :
  attaches_callables ops = true → OpCall self func ∈ ops →
  callable func = true.
Proof.
  unfold attaches_callables. rewrite forallb_forall.
  intros Hall Hin%list_elem_of_In. exact (Hall _ Hin).
Qed.

(** C4.  The structured-JSON presets are the primary forms with the JSON
    marker type pre-supplied: [load.from_json(base)] builds what
    [load(base, annotations=(returns.json,))] builds, [dump.to_json(base)]
    what [dump(base, annotations=(json,))] builds, so whatever is done with
    the instance next (attaching a function, then querying it) has the same
    outcome. *)
Theorem preset_is_primary_with_marker (base_class func type_ : pyobj)
    (P_ M_ : list pyobj) (s : state) :
  (∀ (A : Type) (k : loc → M A),
     (self <- load_from_json base_class None ;; k self) s
     = (self <- spec_load_from_json base_class ;; k self) s)
  ∧ (∀ (A : Type) (k : loc → M A),
     (self <- dump_to_json base_class None ;; k self) s
     = (self <- spec_dump_to_json base_class ;; k self) s)
  ∧ (self <- load_from_json base_class None ;;
     __call__ self func ;; _marshall self type_ P_ M_) s
    = (self <- spec_load_from_json base_class ;;
       __call__ self func ;; _marshall self type_ P_ M_) s
  ∧ (self <- dump_to_json base_class None ;;
     __call__ self func ;; _marshall self type_ P_ M_) s
    = (self <- spec_dump_to_json base_class ;;
       __call__ self func ;; _marshall self type_ P_ M_) s.
Proof.
  unfold load_from_json, dump_to_json, functools_partial_annotations,
    spec_load_from_json, spec_dump_to_json.
  simpl. done.
Qed.

(** C5, as the code has it.  Nothing is converted to its type at
    construction: a required set built from a marker instance holds the
    instance, not its type, and so is not met by a call site that carries
    that very marker. *)
Lemma init_keeps_annotations_as_given :
  _annotations (__init__ LoadCls (PyClass Zoo.Animal) (Some [Zoo.json_marker]))
  ≠ list_to_set (type <$> [Zoo.json_marker])
  ∧ ((self <- load (PyClass Zoo.Animal) (Some [Zoo.json_marker]) ;;
      __call__ self Zoo.load_animal ;;
      _marshall self (PyClass Zoo.Animal) [] [Zoo.json_marker]) init_state).1
    = Ok None.
Proof.
  split; [| vm_compute; reflexivity].
  intros Heq.
  assert (Hin : Zoo.json_marker
                ∈@{gset pyobj} list_to_set (type <$> [Zoo.json_marker])).
  { rewrite <- Heq. simpl. set_solver. }
  simpl in Hin.
  apply elem_of_union in Hin as [Hin%elem_of_singleton | Hin%elem_of_empty];
    [discriminate | done].
Qed.

(** C5, amended.  The stored set is the set of the arguments as given, and
    it is this set that the marker check compares with the combined set of
    the types of the supplied markers. *)
Theorem required_markers_stored_as_given (cls : builder_class)
    (base_class : pyobj) (annotations : option (list pyobj))
    (P M : list pyobj) (s : state) :
  _annotations (__init__ cls base_class annotations)
  = list_to_set (default [] annotations)
  ∧ ((self <- new cls base_class annotations ;;
      _contains_annotations self P M) s).1
    = Ok (bool_decide
            (list_to_set (default [] annotations) ⊆ supplied_types P M)).
Proof.
  split; [done |]. unfold bind. rewrite new_run.
  erewrite _contains_annotations_run by (simpl; apply lookup_insert_eq).
  done.
Qed.

(** C6, as the code has it.  A base that is not a class (here a string)
    is accepted: construction returns normally, the registration goes
    through and the builder is in the registry. *)
Lemma non_type_base_is_registered :
  (load (PyStr "Animal") None init_state).1 = Ok 0
  ∧ decorate load_ (PyStr "Animal") None Zoo.load_animal init_state
    = (Ok Zoo.load_animal,
       State {[ 0 := Builder LoadCls (PyStr "Animal") ∅ Zoo.load_animal ]}
             [0]).
Proof. split; vm_compute; reflexivity. Qed.

(** C6, amended.  Whatever is passed as the base, class or not,
    construction stores it unchecked and attaching the function raises
    nothing: control reaches the registration function [_r] with a builder
    whose [_model_class] is the value given, and with the default [_r] the
    facade returns normally with that builder in the registry. *)
Theorem registration_never_validates (f : facade) (base_class : pyobj)
    (annotations : option (list pyobj)) (func : pyobj) (s : state) :
  ∃ self b s1,
    heap s1 !! self = Some b
    ∧ _model_class b = base_class
    ∧ _func b = func
    ∧ (∀ _r, (l <- construct f base_class annotations ;; using_ l func _r) s
             = (_r self ;; ret func) s1)
    ∧ decorate f base_class annotations func s
      = (Ok func, State (heap s1) (registry s1 ++ [self])).
Proof.
  set (self := fresh (dom (heap s))).
  set (b := attach (__init__ (facade_class f) base_class
                      (facade_annotations f annotations)) func).
  exists self, b, (State (<[self := b]> (heap s)) (registry s)).
  split; [apply lookup_insert_eq |]. split; [done |]. split; [done |]. split.
  - intros _r. unfold bind at 1. rewrite construct_run, new_run.
    erewrite using__run by (simpl; apply lookup_insert_eq).
    simpl. by rewrite insert_insert_eq.
  - by rewrite decorate_run.
Qed.

(** C7, as the code has it.  [using] stores whatever it is given and
    registers the builder each time: a builder applied to [None] is in the
    registry with no function, and a builder applied to two functions has
    been attached twice and is in the registry twice. *)
Lemma builder_registered_without_function :
  run [OpNew load_ (PyClass Zoo.Animal) None; OpCall 0 PyNone] init_state
  = (Ok tt,
     State {[ 0 := Builder LoadCls (PyClass Zoo.Animal) ∅ PyNone ]} [0])
  ∧ run [OpNew load_ (PyClass Zoo.Animal) None;
         OpCall 0 (PyFunc 1); OpCall 0 (PyFunc 2)] init_state
    = (Ok tt,
       State {[ 0 := Builder LoadCls (PyClass Zoo.Animal) ∅ (PyFunc 2) ]}
             [0; 0]).
Proof. split; vm_compute; reflexivity. Qed.

(** C7, amended.  A builder is registered only inside [using], after
    [_func] has been set to the argument given.  In a program over the
    module that ran to completion: a builder is in the registry as many
    times as it was applied, so a builder that was only constructed is not
    registered; and every registered builder is alive and holds as [_func]
    an argument it was applied to, hence a callable when every argument
    applied in the program was callable. *)
Theorem registered_builders_were_attached (ops : list op) (s : state) :
  run ops init_state = (Ok tt, s) →
  ∀ self,
    registrations self s = attachments self ops
    ∧ (attachments self ops = 0 → self ∉ registry s)
    ∧ (self ∈ registry s →
       ∃ b, heap s !! self = Some b
            ∧ OpCall self (_func b) ∈ ops
            ∧ (attaches_callables ops = true → callable (_func b) = true)).
Proof.
  intros Hrun self.
  destruct (run_invariant (λ _ _, False) ops init_state s) as [Hinv Hcount];
    [| done |].
  { intros l Hl. by apply elem_of_nil in Hl. }
  specialize (Hcount self).
  change (registrations self init_state) with 0 in Hcount.
  split; [lia |]. split.
  - intros Hzero Hin%registrations_elem_of. lia.
  - intros (b & Hb & [[] | Hin])%Hinv. exists b.
    split; [done |]. split; [done |].
    intros Hcall. by eapply attaches_callables_elem_of.
Qed.

(** C8.  Applying a builder to a function returns that very function: for
    each of the four facades the decorated name is bound to the function
    that was passed; in general [using] on a live builder stores the
    function, runs the registration function and returns the function. *)
Theorem registration_returns_function (f : facade) (base_class : pyobj)
    (annotations : option (list pyobj)) (func : pyobj) (self : loc)
    (_r : loc → M unit) (s : state) :
  (decorate f base_class annotations func s).1 = Ok func
  ∧ using_ self func _r s
    = match heap s !! self with
      | Some b =>
          (_r self ;; ret func)
            (State (<[self := attach b func]> (heap s)) (registry s))
      | None => (Raise ReferenceError, s)
      end.
Proof.
  rewrite decorate_run. split; [done |].
  destruct (heap s !! self) as [b|] eqn:Hb.
  - by apply using__run.
  - by apply using__dangling.
Qed.

(** C10, as the code has it.  [using] is defined once, in the common base
    class, and hands a builder of either facade to the same registration
    function: a [load] builder and a [dump] builder end up side by side in
    the one registry. *)
Lemma load_and_dump_share_registry :
  (decorate load_ (PyClass Zoo.Animal) None (PyFunc 1) ;;
   decorate dump_ (PyClass Zoo.Animal) None (PyFunc 2)) init_state
  = (Ok (PyFunc 2),
     State {[ 0 := Builder LoadCls (PyClass Zoo.Animal) ∅ (PyFunc 1);
              1 := Builder DumpCls (PyClass Zoo.Animal) ∅ (PyFunc 2) ]}
           [0; 1]).
Proof. vm_compute. reflexivity. Qed.

(** C10, amended.  Registration through a facade hands the new builder,
    of the facade's class and with the function attached, to the one
    registration function [_r] of [using], the same whatever the facade;
    with the default [_r] the builder is added at the end of the registry.
    The direction is carried by the builder itself: its own query method,
    [make_response_body_converter] for [load] and
    [make_request_body_converter] for [dump], is [_marshall]. *)
Theorem registration_hands_builder_to_registry (f : facade)
    (base_class : pyobj) (annotations : option (list pyobj)) (func : pyobj)
    (s : state) :
  ∃ self b s1,
    heap s1 !! self = Some b
    ∧ __class__ b = facade_class f
    ∧ _func b = func
    ∧ (∀ _r, (l <- construct f base_class annotations ;; using_ l func _r) s
             = (_r self ;; ret func) s1)
    ∧ decorate f base_class annotations func s
      = (Ok func, State (heap s1) (registry s1 ++ [self]))
    ∧ ∀ type_ P M,
        facade_query (facade_class f) self type_ P M
          (State (heap s1) (registry s1 ++ [self]))
        = _marshall self type_ P M (State (heap s1) (registry s1 ++ [self])).
Proof.
  set (self := fresh (dom (heap s))).
  set (b := attach (__init__ (facade_class f) base_class
                      (facade_annotations f annotations)) func).
  exists self, b, (State (<[self := b]> (heap s)) (registry s)).
  split; [apply lookup_insert_eq |]. split; [done |]. split; [done |].
  split; [| split].
  - intros _r. unfold bind at 1. rewrite construct_run, new_run.
    erewrite using__run by (simpl; apply lookup_insert_eq).
    simpl. by rewrite insert_insert_eq.
  - by rewrite decorate_run.
  - intros type_ P M. simpl.
    assert (Hb : heap (State (<[self := b]> (heap s)) (registry s ++ [self]))
                 !! self = Some b) by apply lookup_insert_eq.
    assert (Hcls : __class__ b = facade_class f) by done.
    clearbody b.
    destruct (facade_class f); simpl;
      unfold make_response_body_converter, make_request_body_converter, bind;
      by rewrite (deref_run _ _ _ Hb), Hcls.
Qed.

(** ** The theorems at the small program *)

Lemma marshall_converter_iff_witness :
  heap Zoo.registered !! 0 = Some Zoo.animal_loader
  ∧ _model_class Zoo.animal_loader = PyClass Zoo.Animal
  ∧ callable (_func Zoo.animal_loader) = true
  ∧ ((∃ conv, (_marshall 0 (PyClass Zoo.Dog) [] [Zoo.json_marker]
                 Zoo.registered).1 = Ok (Some conv))
       ↔ subclass Zoo.Dog Zoo.Animal
         ∧ _annotations Zoo.animal_loader
           ⊆ supplied_types [] [Zoo.json_marker]).
Proof.
  split; [reflexivity |]. split; [reflexivity |]. split; [reflexivity |].
  apply (marshall_converter_iff Zoo.registered 0 Zoo.animal_loader
           Zoo.Animal Zoo.Dog [] [Zoo.json_marker]); reflexivity.
Defined.

Lemma marshall_converter_applies_witness :
  heap Zoo.registered !! 0 = Some Zoo.animal_loader
  ∧ (_marshall 0 (PyClass Zoo.Dog) [] [] Zoo.registered).1
    = Ok (Some (Partial Zoo.load_animal [PyClass Zoo.Dog]))
  ∧ call_partial Zoo.call_body (Partial Zoo.load_animal [PyClass Zoo.Dog])
      [Zoo.rex] Zoo.registered
    = call Zoo.call_body Zoo.load_animal [PyClass Zoo.Dog; Zoo.rex]
        Zoo.registered.
Proof.
  split; [reflexivity |]. split; [vm_compute; reflexivity |].
  apply (marshall_converter_applies Zoo.call_body Zoo.registered 0
           Zoo.animal_loader (PyClass Zoo.Dog) [] []);
    [reflexivity | vm_compute; reflexivity].
Defined.

Lemma marshall_no_match_returns_none_witness :
  heap Zoo.registered !! 0 = Some Zoo.animal_loader
  ∧ ¬ type_compatible (PyClass Zoo.Plant) (_model_class Zoo.animal_loader)
  ∧ _marshall 0 (PyClass Zoo.Plant) [] [Zoo.json_marker] Zoo.registered
    = (Ok None, Zoo.registered).
Proof.
  assert (Hplant : ¬ type_compatible (PyClass Zoo.Plant)
                       (_model_class Zoo.animal_loader)).
  { apply is_subclass_false. vm_compute. reflexivity. }
  split; [reflexivity |]. split; [exact Hplant |].
  apply (marshall_no_match_returns_none Zoo.registered 0 Zoo.animal_loader
           (PyClass Zoo.Plant) [] [Zoo.json_marker]);
    [reflexivity | left; exact Hplant].
Defined.

Lemma registered_builders_were_attached_witness :
  run Zoo.program init_state = (Ok tt, Zoo.registered)
  ∧ registrations 0 Zoo.registered = attachments 0 Zoo.program
  ∧ ∃ b, heap Zoo.registered !! 0 = Some b
         ∧ OpCall 0 (_func b) ∈ Zoo.program
         ∧ (attaches_callables Zoo.program = true →
            callable (_func b) = true).
Proof.
  split; [vm_compute; reflexivity |].
  destruct (registered_builders_were_attached Zoo.program Zoo.registered)
    with (self := 0) as (Hcount & _ & Hfunc);
    [vm_compute; reflexivity |].
  split; [exact Hcount |]. apply Hfunc. left.
Defined.

(** * Further properties of the module *)

(** ** The marker check *)

Lemma type_is_class o : ∃ c, type o = PyClass c.
Proof. destruct o; simpl; eauto. Qed.

Lemma elem_of_supplied_types t P M :
  t ∈ supplied_types P M ↔ ∃ m, m ∈ P ++ M ∧ type m = t.
Proof.
  unfold supplied_types.
  rewrite elem_of_union, !elem_of_list_to_set, !list_elem_of_fmap. split.
  - intros [(m & -> & Hm) | (m & -> & Hm)]; exists m;
      (split; [apply elem_of_app; eauto | done]).
  - intros (m & [Hm | Hm]%elem_of_app & <-); eauto.
Qed.

Lemma supplied_types_ext P M P' M' :
  (∀ t, t ∈ type <$> (P ++ M) ↔ t ∈ type <$> (P' ++ M')) →
  supplied_types P M = supplied_types P' M'.
Proof.
  intros Hext. apply set_eq. intros t. rewrite !elem_of_supplied_types.
  specialize (Hext t). rewrite !list_elem_of_fmap in Hext.
  split; intros (m & Hm & <-).
  - destruct Hext as [Hto _].
    destruct Hto as (m' & Heq & Hm'); [by exists m | by exists m'].
  - destruct Hext as [_ Hfrom].
    destruct Hfrom as (m' & Heq & Hm'); [by exists m | by exists m'].
Qed.

Lemma supplied_types_app P M P' M' :
  supplied_types P M ⊆ supplied_types (P ++ P') (M ++ M').
Proof.
  intros t. rewrite !elem_of_supplied_types.
  intros (m & Hm & <-). exists m. split; [| done].
  rewrite !elem_of_app. apply elem_of_app in Hm as [Hm | Hm]; eauto.
Qed.

Lemma _marshall_outcome s self type_ P M :
  _marshall self type_ P M s
  = (match heap s !! self with
     | Some b => marshall_outcome b type_ P M
     | None => Raise ReferenceError
     end, s).
Proof.
  destruct (heap s !! self) as [b|] eqn:Hb.
  - by apply _marshall_run.
  - by apply _marshall_dangling.
Qed.

(** The marker check passes exactly when every required annotation is the
    type of some marker supplied, at the argument or at the method level. *)
Theorem marker_check_elementwise (s : state) (self : loc)
    (b : _ModelConverterBuilder) (P M : list pyobj) :
  heap s !! self = Some b →
  (_contains_annotations self P M s).1 = Ok true
  ↔ ∀ r, r ∈ _annotations b → ∃ m, m ∈ P ++ M ∧ type m = r.
Proof.
  intros Hb. rewrite (_contains_annotations_run _ _ _ _ _ Hb). simpl. split.
  - intros [= Hsub%bool_decide_eq_true] r Hr.
    by apply elem_of_supplied_types, Hsub.
  - intros Hall. f_equal. apply bool_decide_eq_true. intros r Hr.
    by apply elem_of_supplied_types, Hall.
Qed.

Lemma marker_check_elementwise_witness :
  heap ZooJson.registered !! 0 = Some ZooJson.json_loader
  ∧ ((_contains_annotations 0 [] [Zoo.json_marker] ZooJson.registered).1
       = Ok true
     ↔ ∀ r, r ∈ _annotations ZooJson.json_loader →
            ∃ m, m ∈ [] ++ [Zoo.json_marker] ∧ type m = r).
Proof.
  split; [reflexivity |].
  apply (marker_check_elementwise ZooJson.registered 0 ZooJson.json_loader
           [] [Zoo.json_marker]).
  reflexivity.
Defined.

(** A query depends on the markers only through the set of their types:
    two call sites whose markers have the same types, in whatever order,
    multiplicity or split between arguments and method, get the same
    answer. *)
Theorem marshall_depends_on_marker_types (s : state) (self : loc)
    (type_ : pyobj) (P M P' M' : list pyobj) :
  (∀ t, t ∈ type <$> (P ++ M) ↔ t ∈ type <$> (P' ++ M')) →
  _marshall self type_ P M s = _marshall self type_ P' M' s.
Proof.
  intros Hext. rewrite !_marshall_outcome.
  destruct (heap s !! self) as [b|]; [| done].
  unfold marshall_outcome. by rewrite (supplied_types_ext _ _ _ _ Hext).
Qed.

Lemma marshall_depends_on_marker_types_witness :
  (∀ t, t ∈ type <$> ([Zoo.json_marker] ++ [])
        ↔ t ∈ type <$> ([] ++ [Zoo.json_marker; Zoo.json_marker]))
  ∧ _marshall 0 (PyClass Zoo.Dog) [Zoo.json_marker] [] ZooJson.registered
    = _marshall 0 (PyClass Zoo.Dog) [] [Zoo.json_marker; Zoo.json_marker]
        ZooJson.registered.
Proof.
  assert (Hext : ∀ t, t ∈ type <$> ([Zoo.json_marker] ++ [])
                      ↔ t ∈ type <$> ([] ++ [Zoo.json_marker; Zoo.json_marker])).
  { intros t. simpl. rewrite !elem_of_cons. split; [eauto |].
    by intros [-> | [-> | Hnil]]; [left | left | right]. }
  split; [exact Hext |].
  exact (marshall_depends_on_marker_types ZooJson.registered 0
           (PyClass Zoo.Dog) [Zoo.json_marker] []
           [] [Zoo.json_marker; Zoo.json_marker] Hext).
Defined.

(** Markers beyond the required ones are ignored: a query that gets a
    converter gets the same converter when more markers are supplied. *)
Theorem marshall_extra_markers (s : state) (self : loc) (type_ : pyobj)
    (P M P' M' : list pyobj) (conv : partial) :
  (_marshall self type_ P M s).1 = Ok (Some conv) →
  (_marshall self type_ (P ++ P') (M ++ M') s).1 = Ok (Some conv).
Proof.
  rewrite !_marshall_outcome. simpl.
  destruct (heap s !! self) as [b|]; [| done].
  intros (Ht & Hm & Hf & ->)%marshall_outcome_converter.
  apply marshall_outcome_match; [done | | done].
  etrans; [exact Hm | apply supplied_types_app].
Qed.

Lemma marshall_extra_markers_witness :
  (_marshall 0 (PyClass Zoo.Dog) [] [Zoo.json_marker] ZooJson.registered).1
  = Ok (Some (Partial Zoo.load_animal [PyClass Zoo.Dog]))
  ∧ (_marshall 0 (PyClass Zoo.Dog) ([] ++ [Zoo.rex])
       ([Zoo.json_marker] ++ [PyNone]) ZooJson.registered).1
    = Ok (Some (Partial Zoo.load_animal [PyClass Zoo.Dog])).
Proof.
  split; [vm_compute; reflexivity |].
  apply (marshall_extra_markers ZooJson.registered 0 (PyClass Zoo.Dog)
           [] [Zoo.json_marker] [Zoo.rex] [PyNone]).
  vm_compute. reflexivity.
Defined.

(** A required annotation that is not a class can never be supplied, since
    the call site contributes types only: such a builder declines every
    query. *)
Theorem non_class_requirement_never_matches (s : state) (self : loc)
    (b : _ModelConverterBuilder) (r type_ : pyobj) (P M : list pyobj) :
  heap s !! self = Some b →
  r ∈ _annotations b →
  (∀ c, r ≠ PyClass c) →
  _marshall self type_ P M s = (Ok None, s).
Proof.
  intros Hb Hr Hnc. rewrite (_marshall_run _ _ _ _ _ _ Hb). f_equal.
  apply marshall_outcome_no_match. right. intros Hsub.
  apply Hsub, elem_of_supplied_types in Hr as (m & _ & Hm).
  destruct (type_is_class m) as [c Hc]. apply (Hnc c). congruence.
Qed.

Lemma non_class_requirement_never_matches_witness :
  heap ZooJson.registered_instance !! 0 = Some ZooJson.instance_loader
  ∧ Zoo.json_marker ∈ _annotations ZooJson.instance_loader
  ∧ (∀ c, Zoo.json_marker ≠ PyClass c)
  ∧ _marshall 0 (PyClass Zoo.Animal) [] [Zoo.json_marker]
      ZooJson.registered_instance
    = (Ok None, ZooJson.registered_instance).
Proof.
  assert (Hin : Zoo.json_marker ∈ _annotations ZooJson.instance_loader).
  { simpl. set_solver. }
  assert (Hnc : ∀ c, Zoo.json_marker ≠ PyClass c) by (intros c; discriminate).
  split; [reflexivity |]. split; [exact Hin |]. split; [exact Hnc |].
  exact (non_class_requirement_never_matches ZooJson.registered_instance 0
           ZooJson.instance_loader Zoo.json_marker (PyClass Zoo.Animal)
           [] [Zoo.json_marker] eq_refl Hin Hnc).
Defined.

(** ** Builders without a function, and builders attached twice *)

(** A live builder whose [_func] is not callable (as left by [__init__])
    raises [TypeError] on exactly the queries it would match, and declines
    the others as usual. *)
Theorem unattached_builder_raises_on_match (s : state) (self : loc)
    (b : _ModelConverterBuilder) (type_ : pyobj) (P M : list pyobj) :
  heap s !! self = Some b →
  callable (_func b) = false →
  ((_marshall self type_ P M s).1 = Raise TypeError
     ↔ type_compatible type_ (_model_class b)
       ∧ _annotations b ⊆ supplied_types P M)
  ∧ ((_marshall self type_ P M s).1 = Ok None
     ↔ ¬ (type_compatible type_ (_model_class b)
          ∧ _annotations b ⊆ supplied_types P M)).
Proof.
  intros Hb Hf. rewrite (_marshall_run _ _ _ _ _ _ Hb). simpl.
  unfold marshall_outcome. rewrite Hf.
  destruct (is_subclass _ _) eqn:Ht; simpl.
  - apply is_subclass_spec in Ht. case_bool_decide as Hm.
    + split; split; [done | done | done | intros Hn; by destruct Hn].
    + split; split; [done | by intros [_ ?] | by intros _ [_ ?] | done].
  - apply is_subclass_false in Ht.
    split; split; [done | by intros [? _] | by intros _ [? _] | done].
Qed.

Lemma unattached_builder_raises_on_match_witness :
  heap ZooJson.constructed !! 0
  = Some (__init__ LoadCls (PyClass Zoo.Animal) None)
  ∧ callable (_func (__init__ LoadCls (PyClass Zoo.Animal) None)) = false
  ∧ (_marshall 0 (PyClass Zoo.Dog) [] [] ZooJson.constructed).1
    = Raise TypeError.
Proof.
  split; [reflexivity |]. split; [reflexivity |].
  destruct (unattached_builder_raises_on_match ZooJson.constructed 0
              (__init__ LoadCls (PyClass Zoo.Animal) None)
              (PyClass Zoo.Dog) [] [] eq_refl eq_refl) as [Hraise _].
  apply Hraise. split.
  - apply is_subclass_spec. vm_compute. reflexivity.
  - simpl. set_solver.
Defined.

(** Applying a live builder to a second function replaces the first one
    and registers the same builder once more: the registry then holds the
    reference twice, and both entries see the second function. *)
Theorem second_attachment_replaces (s : state) (self : loc)
    (b : _ModelConverterBuilder) (func1 func2 : pyobj) :
  heap s !! self = Some b →
  (__call__ self func1 ;; __call__ self func2) s
  = (Ok func2,
     State (<[self := attach b func2]> (heap s))
           (registry s ++ [self; self])).
Proof.
  intros Hb. unfold bind at 1. rewrite (__call___run _ _ _ _ Hb).
  erewrite __call___run by (simpl; apply lookup_insert_eq).
  simpl. rewrite insert_insert_eq, <- app_assoc. done.
Qed.

Lemma second_attachment_replaces_witness :
  heap ZooJson.constructed !! 0
  = Some (__init__ LoadCls (PyClass Zoo.Animal) None)
  ∧ (__call__ 0 Zoo.load_animal ;; __call__ 0 ZooJson.load_animal_v2)
      ZooJson.constructed
    = (Ok ZooJson.load_animal_v2,
       State (<[0 := attach (__init__ LoadCls (PyClass Zoo.Animal) None)
                       ZooJson.load_animal_v2]> (heap ZooJson.constructed))
             (registry ZooJson.constructed ++ [0; 0])).
Proof.
  split; [reflexivity |].
  apply (second_attachment_replaces ZooJson.constructed 0
           (__init__ LoadCls (PyClass Zoo.Animal) None)
           Zoo.load_animal ZooJson.load_animal_v2).
  reflexivity.
Defined.

(** A converter holds the function the builder had when the query was
    answered: replacing the builder's function afterwards does not change
    converters already handed out, while later queries bind the new
    function. *)
Theorem converter_keeps_bound_function (s : state) (self : loc)
    (b : _ModelConverterBuilder) (type_ : pyobj) (P M : list pyobj)
    (conv : partial) (func2 : pyobj) :
  heap s !! self = Some b →
  (_marshall self type_ P M s).1 = Ok (Some conv) →
  callable func2 = true →
  ((before <- _marshall self type_ P M ;;
    __call__ self func2 ;;
    after <- _marshall self type_ P M ;;
    ret (before, after)) s).1
  = Ok (Some (Partial (_func b) [type_]), Some (Partial func2 [type_])).
Proof.
  intros Hb Hconv Hf2. rewrite (_marshall_run _ _ _ _ _ _ Hb) in Hconv.
  simpl in Hconv.
  apply marshall_outcome_converter in Hconv as (Ht & Hm & Hf & ->).
  unfold bind. rewrite (_marshall_run _ _ _ _ _ _ Hb).
  rewrite (marshall_outcome_match _ _ _ _ Ht Hm Hf).
  rewrite (__call___run _ _ _ _ Hb).
  erewrite _marshall_run by (simpl; apply lookup_insert_eq).
  by rewrite (marshall_outcome_match (attach b func2) _ _ _ Ht Hm Hf2).
Qed.

Lemma converter_keeps_bound_function_witness :
  heap Zoo.registered !! 0 = Some Zoo.animal_loader
  ∧ (_marshall 0 (PyClass Zoo.Dog) [] [] Zoo.registered).1
    = Ok (Some (Partial Zoo.load_animal [PyClass Zoo.Dog]))
  ∧ callable ZooJson.load_animal_v2 = true
  ∧ ((before <- _marshall 0 (PyClass Zoo.Dog) [] [] ;;
      __call__ 0 ZooJson.load_animal_v2 ;;
      after <- _marshall 0 (PyClass Zoo.Dog) [] [] ;;
      ret (before, after)) Zoo.registered).1
    = Ok (Some (Partial (_func Zoo.animal_loader) [PyClass Zoo.Dog]),
          Some (Partial ZooJson.load_animal_v2 [PyClass Zoo.Dog])).
Proof.
  split; [reflexivity |]. split; [vm_compute; reflexivity |].
  split; [reflexivity |].
  apply (converter_keeps_bound_function Zoo.registered 0 Zoo.animal_loader
           (PyClass Zoo.Dog) [] []
           (Partial Zoo.load_animal [PyClass Zoo.Dog])
           ZooJson.load_animal_v2);
    [reflexivity | vm_compute; reflexivity | reflexivity].
Defined.

(** When the registration function raises, [using] lets the exception
    through and does not return the function; the function has already
    been stored in the builder. *)
Theorem using_propagates_registration_error (s s' : state) (self : loc)
    (b : _ModelConverterBuilder) (func : pyobj) (_r : loc → M unit)
    (e : exn) :
  heap s !! self = Some b →
  _r self (State (<[self := attach b func]> (heap s)) (registry s))
  = (Raise e, s') →
  using_ self func _r s = (Raise e, s').
Proof.
  intros Hb Hr. rewrite (using__run _ _ _ _ _ Hb). unfold bind. by rewrite Hr.
Qed.

Lemma using_propagates_registration_error_witness :
  heap ZooJson.constructed !! 0
  = Some (__init__ LoadCls (PyClass Zoo.Animal) None)
  ∧ using_ 0 Zoo.load_animal ZooJson.closed_registry ZooJson.constructed
    = (Raise (Exception "registry closed"),
       State {[ 0 := Zoo.animal_loader ]} []).
Proof.
  split; [reflexivity |].
  apply (using_propagates_registration_error ZooJson.constructed _ 0
           (__init__ LoadCls (PyClass Zoo.Animal) None)
           Zoo.load_animal ZooJson.closed_registry
           (Exception "registry closed"));
    [reflexivity | vm_compute; reflexivity].
Defined.

(** ** What programs over the module preserve *)

Lemma exec_heap o s l b :
  heap s !! l = Some b →
  heap (exec o s).2 !! l
  = Some (match o with
          | OpCall l' func => if decide (l' = l) then attach b func else b
          | _ => b
          end).
Proof.
  intros Hb. destruct o as [f B A | l' func | l' T P M | l' T P M]; simpl.
  - unfold bind. rewrite construct_run, new_run. simpl.
    rewrite lookup_insert_ne; [done |].
    intros <-. by rewrite fresh_loc_unused in Hb.
  - unfold bind. destruct (heap s !! l') as [b0|] eqn:Hb0.
    + rewrite (__call___run _ _ _ _ Hb0). simpl.
      destruct (decide (l' = l)) as [-> | Hne].
      * rewrite lookup_insert_eq. congruence.
      * by rewrite lookup_insert_ne.
    + rewrite (__call___dangling _ _ _ Hb0). simpl.
      destruct (decide (l' = l)) as [-> | Hne]; [congruence | done].
  - unfold bind.
    pose proof (make_response_body_converter_state s l' T P M) as Hs.
    destruct (make_response_body_converter l' T P M s) as [[r|e] s0];
      simpl in *; by subst s0.
  - unfold bind.
    pose proof (make_request_body_converter_state s l' T P M) as Hs.
    destruct (make_request_body_converter l' T P M s) as [[r|e] s0];
      simpl in *; by subst s0.
Qed.

Lemma exec_registry o s :
  (∀ l, attachments l [o] = 0) → registry (exec o s).2 = registry s.
Proof.
  intros Hz. destruct o as [f B A | l' func | l' T P M | l' T P M]; simpl.
  - unfold bind. by rewrite construct_run, new_run.
  - specialize (Hz l'). simpl in Hz. case_decide; [lia | done].
  - unfold bind.
    pose proof (make_response_body_converter_state s l' T P M) as Hs.
    destruct (make_response_body_converter l' T P M s) as [[r|e] s0];
      simpl in *; by subst s0.
  - unfold bind.
    pose proof (make_request_body_converter_state s l' T P M) as Hs.
    destruct (make_request_body_converter l' T P M s) as [[r|e] s0];
      simpl in *; by subst s0.
Qed.

Lemma run_cons_state o ops s :
  (run (o :: ops) s).2
  = match (exec o s).1 with
    | Ok _ => (run ops (exec o s).2).2
    | Raise _ => (exec o s).2
    end.
Proof. simpl. unfold bind. by destruct (exec o s) as [[[]|e] s1]. Qed.

Lemma same_configuration_attach b func : same_configuration b (attach b func).
Proof. done. Qed.

Lemma run_heap ops s l b :
  heap s !! l = Some b →
  ∃ b', heap (run ops s).2 !! l = Some b'
        ∧ same_configuration b b'
        ∧ (attachments l ops = 0 → b' = b).
Proof.
  revert s b. induction ops as [|o ops IH]; intros s b Hb.
  - exists b. by repeat split.
  - rewrite run_cons_state. pose proof (exec_heap o s l b Hb) as Ho.
    set (b1 := match o with
               | OpCall l' func => if decide (l' = l) then attach b func else b
               | _ => b
               end) in Ho.
    assert (Hcfg : same_configuration b b1).
    { subst b1. destruct o; try done. by case_decide. }
    assert (Hsame : attachments l [o] = 0 → b1 = b).
    { subst b1. destruct o; try done. simpl. case_decide; [lia | done]. }
    rewrite (attachments_cons l o ops).
    destruct (exec o s).1.
    + destruct (IH _ _ Ho) as (b' & Hb' & (Hc & Hm & Ha) & Hfix).
      exists b'. split; [done |]. split.
      * destruct Hcfg as (Hc1 & Hm1 & Ha1). repeat split; congruence.
      * intros Hz. rewrite Hfix by lia. apply Hsame. lia.
    + exists b1. split; [done |]. split; [done |]. intros Hz. apply Hsame. lia.
Qed.

(** The class, the base and the required markers of a builder are fixed at
    construction: whatever a program does next, and whether or not it ends
    with an exception, the builder is still alive with the same three. *)
Theorem run_keeps_configuration (ops : list op) (s : state) (l : loc)
    (b : _ModelConverterBuilder) :
  heap s !! l = Some b →
  ∃ b', heap (run ops s).2 !! l = Some b' ∧ same_configuration b b'.
Proof.
  intros Hb. destruct (run_heap ops s l b Hb) as (b' & Hb' & Hcfg & _). eauto.
Qed.

Lemma run_keeps_configuration_witness :
  heap ZooJson.registered !! 0 = Some ZooJson.json_loader
  ∧ ∃ b', heap (run [OpCall 0 ZooJson.load_animal_v2] ZooJson.registered).2
            !! 0 = Some b'
          ∧ same_configuration ZooJson.json_loader b'.
Proof.
  split; [reflexivity |].
  apply (run_keeps_configuration [OpCall 0 ZooJson.load_animal_v2]
           ZooJson.registered 0 ZooJson.json_loader).
  reflexivity.
Defined.

(** Only applying a builder to a function registers: a program that
    constructs builders and queries them, without applying any to a
    function, leaves the registry exactly as it was, whether or not it
    ends with an exception. *)
Theorem run_without_attachment_keeps_registry (ops : list op) (s : state) :
  (∀ l, attachments l ops = 0) →
  registry (run ops s).2 = registry s.
Proof.
  revert s. induction ops as [|o ops IH]; intros s Hz; [done |].
  assert (Ho : ∀ l, attachments l [o] = 0).
  { intros l. specialize (Hz l). rewrite attachments_cons in Hz. lia. }
  assert (Hops : ∀ l, attachments l ops = 0).
  { intros l. specialize (Hz l). rewrite attachments_cons in Hz. lia. }
  rewrite run_cons_state. destruct (exec o s).1.
  - by rewrite (IH _ Hops), (exec_registry _ _ Ho).
  - by apply exec_registry.
Qed.

Lemma run_without_attachment_keeps_registry_witness :
  (∀ l, attachments l [OpNew dump_ (PyClass Zoo.Plant) None;
                       OpResponse 1 (PyClass Zoo.Plant) [] [];
                       OpRequest 1 (PyClass Zoo.Plant) [] []] = 0)
  ∧ registry (run [OpNew dump_ (PyClass Zoo.Plant) None;
                   OpResponse 1 (PyClass Zoo.Plant) [] [];
                   OpRequest 1 (PyClass Zoo.Plant) [] []] Zoo.registered).2
    = registry Zoo.registered.
Proof.
  split; [intros l; reflexivity |].
  apply (run_without_attachment_keeps_registry
           [OpNew dump_ (PyClass Zoo.Plant) None;
            OpResponse 1 (PyClass Zoo.Plant) [] [];
            OpRequest 1 (PyClass Zoo.Plant) [] []] Zoo.registered).
  intros l. reflexivity.
Defined.

(** Builders are answered in isolation: a program that never applies the
    builder [l] to a function, whatever it constructs, attaches or queries
    elsewhere, leaves [l] as it was, and every query of [l] is answered
    after the program as it was before. *)
Theorem run_elsewhere_keeps_answers (ops : list op) (s : state) (l : loc)
    (b : _ModelConverterBuilder) :
  heap s !! l = Some b →
  attachments l ops = 0 →
  heap (run ops s).2 !! l = Some b
  ∧ ∀ type_ P M,
      (_marshall l type_ P M (run ops s).2).1 = (_marshall l type_ P M s).1.
Proof.
  intros Hb Hz. destruct (run_heap ops s l b Hb) as (b' & Hb' & _ & Hfix).
  rewrite (Hfix Hz) in Hb'. split; [done |]. intros type_ P M.
  by rewrite (_marshall_run _ _ _ _ _ _ Hb), (_marshall_run _ _ _ _ _ _ Hb').
Qed.

Lemma run_elsewhere_keeps_answers_witness :
  heap ZooJson.registered !! 0 = Some ZooJson.json_loader
  ∧ attachments 0 ZooJson.other_program = 0
  ∧ heap (run ZooJson.other_program ZooJson.registered).2 !! 0
    = Some ZooJson.json_loader.
Proof.
  split; [reflexivity |]. split; [reflexivity |].
  apply (run_elsewhere_keeps_answers ZooJson.other_program
           ZooJson.registered 0 ZooJson.json_loader); reflexivity.
Defined.

(** ** The decorated function, end to end *)

Lemma subclass_trans c p b : subclass c p → subclass p b → subclass c b.
Proof.
  induction 1 as [c | c q p Hq _ IH]; [done |].
  intros Hpb. eapply subclass_base; [exact Hq | by apply IH].
Qed.

Lemma facade_query_run cls s self b type_ P M :
  heap s !! self = Some b →
  __class__ b = cls →
  facade_query cls self type_ P M s = (marshall_outcome b type_ P M, s).
Proof.
  intros Hb Hcls. destruct cls; simpl;
    unfold make_response_body_converter, make_request_body_converter, bind;
    rewrite (deref_run _ _ _ Hb), Hcls; by apply _marshall_run.
Qed.

Lemma singleton_requirement (r : pyobj) (X : gset pyobj) :
  list_to_set [r] ⊆ X ↔ r ∈ X.
Proof. simpl. rewrite (right_id_L ∅ (∪)). apply singleton_subseteq_l. Qed.

(** A query that gets a converter for a class gets one for every subclass
    of that class, bound to the subclass: a strategy serves the whole
    family below any class it serves. *)
Theorem marshall_subclass_closed (s : state) (self : loc) (T T' : pyclass)
    (P M : list pyobj) (conv : partial) :
  (_marshall self (PyClass T) P M s).1 = Ok (Some conv) →
  subclass T' T →
  (_marshall self (PyClass T') P M s).1
  = Ok (Some (Partial (partial_func conv) [PyClass T'])).
Proof.
  rewrite !_marshall_outcome. simpl.
  destruct (heap s !! self) as [b|]; [| done].
  intros (Ht & Hm & Hf & ->)%marshall_outcome_converter Hsub. simpl.
  apply marshall_outcome_match; [| done..].
  destruct Ht as (T0 & B & [= <-] & HB & HTB).
  exists T', B. split; [done |]. split; [done |]. by eapply subclass_trans.
Qed.

Lemma marshall_subclass_closed_witness :
  (_marshall 0 (PyClass Zoo.Animal) [] [] Zoo.registered).1
  = Ok (Some (Partial Zoo.load_animal [PyClass Zoo.Animal]))
  ∧ subclass Zoo.Dog Zoo.Animal
  ∧ (_marshall 0 (PyClass Zoo.Dog) [] [] Zoo.registered).1
    = Ok (Some (Partial Zoo.load_animal [PyClass Zoo.Dog])).
Proof.
  assert (Hsub : subclass Zoo.Dog Zoo.Animal).
  { apply issubclass_spec. vm_compute. reflexivity. }
  split; [vm_compute; reflexivity |]. split; [exact Hsub |].
  apply (marshall_subclass_closed Zoo.registered 0 Zoo.Animal Zoo.Dog [] []
           (Partial Zoo.load_animal [PyClass Zoo.Animal]));
    [vm_compute; reflexivity | exact Hsub].
Defined.

(** A function decorated with [load(B)] or [dump(B)] serves the base class
    and all of its subclasses, whatever markers the call site carries, and
    no other class: in its direction the registered builder answers a
    subclass with the function bound to that subclass and any other class
    with [None]. *)
Theorem primary_serves_all_subclasses (f : facade) (B : pyclass)
    (func : pyobj) (s : state) :
  facade_marker f = None →
  callable func = true →
  ∃ self s',
    decorate f (PyClass B) None func s = (Ok func, s')
    ∧ registry s' = registry s ++ [self]
    ∧ ∀ T P M,
        (subclass T B →
         (facade_query (facade_class f) self (PyClass T) P M s').1
         = Ok (Some (Partial func [PyClass T])))
        ∧ (¬ subclass T B →
           (facade_query (facade_class f) self (PyClass T) P M s').1
           = Ok None).
Proof.
  intros Hmark Hf. rewrite decorate_run. do 2 eexists.
  split; [done |]. split; [done |]. intros T P M.
  erewrite facade_query_run; [| simpl; apply lookup_insert_eq | done]. simpl.
  split.
  - intros Hsub. apply marshall_outcome_match; simpl.
    + by apply type_compatible_classes.
    + destruct f; try discriminate; simpl; set_solver.
    + done.
  - intros Hnsub. apply marshall_outcome_no_match. left. simpl.
    by rewrite type_compatible_classes.
Qed.

Lemma primary_serves_all_subclasses_witness :
  facade_marker dump_ = None
  ∧ callable Zoo.load_animal = true
  ∧ ∃ self s',
      decorate dump_ (PyClass Zoo.Animal) None Zoo.load_animal init_state
      = (Ok Zoo.load_animal, s')
      ∧ registry s' = registry init_state ++ [self]
      ∧ ∀ T P M,
          (subclass T Zoo.Animal →
           (facade_query (facade_class dump_) self (PyClass T) P M s').1
           = Ok (Some (Partial Zoo.load_animal [PyClass T])))
          ∧ (¬ subclass T Zoo.Animal →
             (facade_query (facade_class dump_) self (PyClass T) P M s').1
             = Ok None).
Proof.
  split; [reflexivity |]. split; [reflexivity |].
  apply (primary_serves_all_subclasses dump_ Zoo.Animal Zoo.load_animal
           init_state); reflexivity.
Defined.

(** A function decorated with [load.from_json(B)] or [dump.to_json(B)] is
    used only at call sites that carry the JSON marker of the preset: in
    its direction the registered builder answers with the function bound
    to the encountered class exactly when that class is [B] or a subclass
    and some supplied marker, at the argument or the method level, has the
    marker class as its type; otherwise it answers [None]. *)
Theorem preset_requires_json_marker (f : facade) (marker : pyobj)
    (B : pyclass) (func : pyobj) (s : state) :
  facade_marker f = Some marker →
  callable func = true →
  ∃ self s',
    decorate f (PyClass B) None func s = (Ok func, s')
    ∧ registry s' = registry s ++ [self]
    ∧ ∀ T P M,
        ((facade_query (facade_class f) self (PyClass T) P M s').1
         = Ok (Some (Partial func [PyClass T]))
         ↔ subclass T B ∧ ∃ m, m ∈ P ++ M ∧ type m = marker)
        ∧ (¬ (subclass T B ∧ ∃ m, m ∈ P ++ M ∧ type m = marker) →
           (facade_query (facade_class f) self (PyClass T) P M s').1
           = Ok None).
Proof.
  intros Hmark Hf. rewrite decorate_run. do 2 eexists.
  split; [done |]. split; [done |]. intros T P M.
  erewrite facade_query_run; [| simpl; apply lookup_insert_eq | done]. simpl.
  set (b := attach _ func).
  assert (Hreq : _annotations b ⊆ supplied_types P M
                 ↔ ∃ m, m ∈ P ++ M ∧ type m = marker).
  { rewrite <- elem_of_supplied_types. subst b.
    destruct f; try discriminate; injection Hmark as <-;
      apply singleton_requirement. }
  split; [split |].
  - intros (Ht & Hm & _)%marshall_outcome_converter.
    split; [by apply type_compatible_classes in Ht | by apply Hreq].
  - intros [Hsub Hm]. apply (marshall_outcome_match b); [| by apply Hreq | done].
    by apply type_compatible_classes.
  - intros Hn. apply marshall_outcome_no_match.
    destruct (decide (_annotations b ⊆ supplied_types P M)) as [Hm | Hm];
      [| by right].
    left. change (_model_class b) with (PyClass B).
    rewrite type_compatible_classes. intros Hsub. apply Hn.
    split; [done | by apply Hreq].
Qed.

Lemma preset_requires_json_marker_witness :
  facade_marker load_from_json_ = Some (PyClass decorators.returns_json)
  ∧ callable Zoo.load_animal = true
  ∧ ∃ self s',
      decorate load_from_json_ (PyClass Zoo.Animal) None Zoo.load_animal
        init_state
      = (Ok Zoo.load_animal, s')
      ∧ registry s' = registry init_state ++ [self]
      ∧ ∀ T P M,
          ((facade_query (facade_class load_from_json_) self (PyClass T)
              P M s').1
           = Ok (Some (Partial Zoo.load_animal [PyClass T]))
           ↔ subclass T Zoo.Animal
             ∧ ∃ m, m ∈ P ++ M ∧ type m = PyClass decorators.returns_json)
          ∧ (¬ (subclass T Zoo.Animal
                ∧ ∃ m, m ∈ P ++ M ∧ type m = PyClass decorators.returns_json) →
             (facade_query (facade_class load_from_json_) self (PyClass T)
                P M s').1
             = Ok None).
Proof.
  split; [reflexivity |]. split; [reflexivity |].
  apply (preset_requires_json_marker load_from_json_
           (PyClass decorators.returns_json) Zoo.Animal Zoo.load_animal
           init_state); reflexivity.
Defined.
